(** * todo-list: the change-password route and the comment edit input

    A shallow embedding of two source files of the repository:

    - the change-password route module ([loader] and [action]), and
    - [src/app/components/edit-comment-input.tsx] ([handleKeyDown]).

    The route handlers are asynchronous JavaScript functions that call
    collaborators (the cookie codec, Prisma, argon2) one after the other.
    They are embedded as computations in a small monad that threads the
    state of the world (the [User] table, the entropy argon2 draws its
    salt from, and a log of the collaborator calls made so far) and may
    end in a thrown exception. *)

From Stdlib Require Import List String Ascii Bool Arith NArith ZArith Lia.
From Stdlib Require Import Floats.
Import ListNotations.

Local Open Scope string_scope.
Local Open Scope list_scope.

(* ===================================================================== *)
(** * JavaScript values *)
(* ===================================================================== *)

Module JS.

(** A JavaScript string is a sequence of UTF-16 code units; [.length]
    counts code units. *)
Definition code_unit : Type := N.
Definition jsstring : Type := list code_unit.

(** The string whose code units are the characters of an ASCII literal. *)
Definition utf16 (s : string) : jsstring :=
  map N_of_ascii (list_ascii_of_string s).

(** The values [JSON.parse] produces, and [undefined] (the value of a
    property that is not there).  Numbers are IEEE 754 doubles.  The
    property list of an object holds its own properties. *)
#[warnings="-register-all"]
Inductive value : Type :=
| VUndefined
| VNull
| VBool (b : bool)
| VNum (n : float)
| VStr (s : jsstring)
| VArr (elems : list value)
| VObj (props : list (string * value)).

(** The outcome of evaluating something that may throw. *)
Inductive exn : Type :=
| TypeError
| SyntaxError
| RecordNotFound          (* Prisma: the row to update does not exist *)
| Thrown (v : value).     (* any other thrown value *)

Inductive completion (A : Type) : Type :=
| Returned (a : A)
| Threw (e : exn).
Arguments Returned {A} a.
Arguments Threw {A} e.

(** ECMAScript ToBoolean: [!v] is [negb (truthy v)]. *)
Definition truthy (v : value) : bool :=
  match v with
  | VUndefined | VNull => false
  | VBool b => b
  | VNum n => negb (PrimFloat.eqb n 0%float || PrimFloat.is_nan n)
  | VStr s => match s with [] => false | _ :: _ => true end
  | VArr _ | VObj _ => true
  end.

(** [a === b] on strings. *)
Definition string_eqb (a b : jsstring) : bool :=
  if list_eq_dec N.eq_dec a b then true else false.

(** [a || b]. *)
Definition or_else (a b : value) : value :=
  if truthy a then a else b.

Fixpoint lookup (k : string) (props : list (string * value)) : option value :=
  match props with
  | [] => None
  | (k', v) :: rest => if String.eqb k k' then Some v else lookup k rest
  end.

(** [o.k] for a property name [k] other than [length], on a value that is
    neither [null] nor [undefined]: an own property of an object, and
    [undefined] on anything else. *)
Definition get (o : value) (k : string) : value :=
  match o with
  | VObj props => match lookup k props with Some v => v | None => VUndefined end
  | _ => VUndefined
  end.

Definition nullish (v : value) : bool :=
  match v with
  | VUndefined | VNull => true
  | _ => false
  end.

(** [const { k } = o]: destructuring [null] or [undefined] throws a
    TypeError. *)
Definition destructure (o : value) (k : string) : completion value :=
  if nullish o then Threw TypeError else Returned (get o k).

Definition float_of_nat (k : nat) : float :=
  PrimFloat.of_uint63 (Uint63.of_Z (Z.of_nat k)).

Section Relational.

(** ECMAScript ToNumber on strings, arrays and objects (which parses
    numeric literals and calls [toString]) is left as a parameter; only
    [{ length: <not a number> }] reaches it. *)
Variable ToNumber : value -> float.

Definition to_number (v : value) : float :=
  match v with
  | VUndefined => PrimFloat.nan
  | VNull => 0%float
  | VBool b => if b then 1%float else 0%float
  | VNum n => n
  | VStr _ | VArr _ | VObj _ => ToNumber v
  end.

(** [v.length < k] for a value [v] that is neither [null] nor
    [undefined].  Strings and arrays have a [length]; a number or a
    boolean has none, and [undefined < k] is false; an object has the
    [length] it was given, if any. *)
Definition length_lt (v : value) (k : nat) : bool :=
  match v with
  | VStr s => Nat.ltb (List.length s) k
  | VArr elems => Nat.ltb (List.length elems) k
  | VObj props =>
      match lookup "length" props with
      | Some len => PrimFloat.ltb (to_number len) (float_of_nat k)
      | None => false
      end
  | VUndefined | VNull | VBool _ | VNum _ => false
  end.

End Relational.

End JS.

Import JS.

(* ===================================================================== *)
(** * Requests and responses *)
(* ===================================================================== *)

Module Http.

(** What the handlers read of a request: [request.headers.get("Cookie")]
    ([None] for [null]) and the outcome of [request.json()] ([None] when
    the body is not JSON and the promise rejects). *)
Record Request : Type := {
  cookie : option jsstring;
  json : option value
}.

Record Response : Type := {
  status : Z;
  headers : list (string * jsstring);
  body : option value
}.

(** react-router's [redirect(url, init)]: status 302 unless [init] gives
    one, the headers of [init] with [Location] set, no body. *)
Definition redirect (url : string) (init_headers : list (string * jsstring))
  : Response :=
  {| status := 302;
     headers := init_headers ++ [("Location", utf16 url)];
     body := None |}.

End Http.

Import Http.

(* ===================================================================== *)
(** * The change-password route *)
(* ===================================================================== *)

Module Route.

(** A row of Prisma's [User] table: the primary key, the stored
    credential (an argon2 digest), and the remaining columns by name. *)
Record User : Type := {
  id : value;
  password : jsstring;
  other : list (string * value)
}.

(** The [data] of [prisma.user.update]: the columns to overwrite. *)
Record UserUpdateInput : Type := {
  data_password : option jsstring;
  data_other : list (string * value)
}.

(** The collaborator calls a handler makes, in the order it makes them. *)
Inductive Event : Type :=
| CookieParse (cookieHeader : option jsstring)
| FindUnique (where_id : value)
| RequestJson
| Argon2Verify (digest : jsstring) (plain : value)
| Argon2Hash (plain : value)
| UserUpdate (where_id : value) (data : UserUpdateInput)
| CookieSerialize (payload : value).

Record World (Entropy : Type) : Type := {
  users : list User;
  entropy : Entropy;
  log : list Event
}.
Arguments users {Entropy} w.
Arguments entropy {Entropy} w.
Arguments log {Entropy} w.

(** Computations: state passing, with the state kept when one throws. *)
Definition M (Entropy A : Type) : Type :=
  World Entropy -> completion A * World Entropy.

Definition ret {Entropy A : Type} (a : A) : M Entropy A :=
  fun w => (Returned a, w).

Definition throw {Entropy A : Type} (e : exn) : M Entropy A :=
  fun w => (Threw e, w).

Definition bind {Entropy A B : Type} (c : M Entropy A) (k : A -> M Entropy B)
  : M Entropy B :=
  fun w =>
    match c w with
    | (Returned a, w') => k a w'
    | (Threw e, w') => (Threw e, w')
    end.

(** [try { c } catch (error) { ... }], as the outcome of [c]. *)
Definition attempt {Entropy A : Type} (c : M Entropy A)
  : M Entropy (completion A) :=
  fun w => let (r, w') := c w in (Returned r, w').

Definition lift {Entropy A : Type} (r : completion A) : M Entropy A :=
  fun w => (r, w).

Definition emit {Entropy : Type} (ev : Event) : M Entropy unit :=
  fun w =>
    (Returned tt,
     {| users := users w; entropy := entropy w; log := log w ++ [ev] |}).

Declare Scope route_scope.
Delimit Scope route_scope with route.
Notation "x <- c ;; k" := (bind c (fun x => k))
  (at level 61, c at next level, right associativity) : route_scope.
Notation "c ;; k" := (bind c (fun _ => k))
  (at level 61, right associativity) : route_scope.
Local Open Scope route_scope.

(** Modelled from the spec: the collaborators of the route that are not
    among the source files, as parameters.  The session-cookie codec
    ([authCookie] of [~/lib/cookies.server]) is [parse]/[serialize] over a
    [{ userId }] payload; the hash primitive (argon2) is [verify(hash,
    plaintext) -> bool] and [hash(plaintext) -> hash]; the session check
    ([checkAuth] of [~/lib/check-auth]) lets a request with a valid
    session through and throws otherwise.  [argon2.hash] salts the digest
    with fresh randomness, which it draws from the entropy of the world.
    [ToNumber] is the part of ECMAScript's ToNumber that [to_number]
    leaves open.  A rejection by the codec or by argon2 is not handled by
    the route and is not modelled. *)
Class Collaborators : Type := {
  Entropy : Type;
  authCookie_parse : option jsstring -> value;
  authCookie_serialize : value -> jsstring;
  argon2_verify : jsstring -> value -> bool;
  argon2_hash : Entropy -> value -> jsstring * Entropy;
  checkAuth : Request -> M Entropy value;
  ToNumber : value -> float
}.

Module authCookie.

Definition parse {C : Collaborators} (cookieHeader : option jsstring)
  : M Entropy value :=
  emit (CookieParse cookieHeader) ;;
  ret (authCookie_parse cookieHeader).

Definition serialize {C : Collaborators} (payload : value)
  : M Entropy jsstring :=
  emit (CookieSerialize payload) ;;
  ret (authCookie_serialize payload).

End authCookie.

Module argon2.

Definition verify {C : Collaborators} (digest : jsstring) (plain : value)
  : M Entropy bool :=
  emit (Argon2Verify digest plain) ;;
  ret (argon2_verify digest plain).

Definition hash {C : Collaborators} (plain : value) : M Entropy jsstring :=
  emit (Argon2Hash plain) ;;
  fun w =>
    let (digest, e) := argon2_hash (entropy w) plain in
    (Returned digest, {| users := users w; entropy := e; log := log w |}).

End argon2.

(** Equality of primary keys: a key is a number or a string. *)
Definition key_eqb (a b : value) : bool :=
  match a, b with
  | VNum m, VNum n => PrimFloat.Leibniz.eqb m n
  | VStr s, VStr t => string_eqb s t
  | _, _ => false
  end.

Definition apply_data (data : UserUpdateInput) (u : User) : User :=
  {| id := id u;
     password := match data_password data with
                 | Some p => p
                 | None => password u
                 end;
     other := data_other data ++
              filter (fun c => match JS.lookup (fst c) (data_other data) with
                               | Some _ => false
                               | None => true
                               end) (other u) |}.

(** The table with the row of key [k] overwritten by [data]; [None] when
    there is no such row. *)
Fixpoint update_row (k : value) (data : UserUpdateInput) (rows : list User)
  : option (User * list User) :=
  match rows with
  | [] => None
  | u :: rest =>
      if key_eqb (id u) k then Some (apply_data data u, apply_data data u :: rest)
      else
        match update_row k data rest with
        | Some (u', rest') => Some (u', u :: rest')
        | None => None
        end
  end.

Definition find_row (k : value) (rows : list User) : option User :=
  find (fun u => key_eqb (id u) k) rows.

Module prisma_user.

(** [prisma.user.findUnique({ where: { id } })]: the row or [null].
    Prisma's own validation of the query (a key of the wrong type is
    rejected) is not modelled: such a key finds no row. *)
Definition findUnique {C : Collaborators} (where_id : value)
  : M Entropy (option User) :=
  emit (FindUnique where_id) ;;
  fun w => (Returned (find_row where_id (users w)), w).

(** [prisma.user.update({ where: { id }, data })]: the updated row;
    rejects when there is no row to update. *)
Definition update {C : Collaborators} (where_id : value)
  (data : UserUpdateInput) : M Entropy User :=
  emit (UserUpdate where_id data) ;;
  fun w =>
    match update_row where_id data (users w) with
    | Some (u', rows') =>
        (Returned u',
         {| users := rows'; entropy := entropy w; log := log w |})
    | None => (Threw RecordNotFound, w)
    end.

End prisma_user.

(** [await request.json()]. *)
Definition request_json {C : Collaborators} (request : Request)
  : M Entropy value :=
  emit RequestJson ;;
  match json request with
  | Some v => ret v
  | None => throw SyntaxError
  end.

(** Modelled from the spec: [badRequest] of [~/lib/responses] answers
    with the given structured body and the status 400. *)
Definition badRequest (payload : value) : Response :=
  {| status := 400; headers := []; body := Some payload |}.

Definition detail (message : string) : value :=
  VObj [("detail", VStr (utf16 message))].

(** [loader]: [null] ([None]) lets the page render. *)
Definition loader {C : Collaborators} (request : Request)
  : M Entropy (option Response) :=
  outcome <- attempt (checkAuth request) ;;
  match outcome with
  | Threw error => ret (Some (redirect "/login" []))
  | Returned _ => ret None
  end.

Definition action {C : Collaborators} (request : Request)
  : M Entropy Response :=
  session <- authCookie.parse (cookie request) ;;
  userId <- lift (destructure (or_else session (VObj [])) "userId") ;;
  if negb (truthy userId) then
    ret (redirect "/login" [])
  else
    user <- prisma_user.findUnique userId ;;
    match user with
    | None => ret (redirect "/login" [])
    | Some user =>
        formData <- request_json request ;;
        currentPassword <- lift (destructure formData "currentPassword") ;;
        newPassword <- lift (destructure formData "newPassword") ;;
        if negb (truthy currentPassword) || negb (truthy newPassword) then
          ret (badRequest
                 (detail "Current password and new password are required"))
        else if length_lt ToNumber newPassword 8 then
          ret (badRequest
                 (detail "New password must be at least 8 characters long"))
        else
          isPasswordValid <- argon2.verify (password user) currentPassword ;;
          if negb isPasswordValid then
            ret (badRequest (detail "Current password is incorrect"))
          else
            hashedPassword <- argon2.hash newPassword ;;
            prisma_user.update (id user)
              {| data_password := Some hashedPassword; data_other := [] |} ;;
            token <- authCookie.serialize (VObj [("userId", id user)]) ;;
            ret (redirect "/" [("Set-Cookie", token)])
    end.

(** The user identifier the session cookie of a request resolves to
    ([undefined] when it resolves to none). *)
Definition session_userId {C : Collaborators} (request : Request) : value :=
  get (or_else (authCookie_parse (cookie request)) (VObj [])) "userId".

(** The world after further collaborator calls that leave the table and
    the entropy as they are. *)
Definition record {Entropy : Type} (w : World Entropy) (evs : list Event)
  : World Entropy :=
  {| users := users w; entropy := entropy w; log := log w ++ evs |}.

(** Step 3 of the workflow, the presence validation of a submitted body:
    neither [!currentPassword] nor [!newPassword]. *)
Definition presence_ok (formData : value) : bool :=
  truthy (get formData "currentPassword")
  && truthy (get formData "newPassword").

(** Step 4, the length validation: not [newPassword.length < 8]. *)
Definition length_ok {C : Collaborators} (formData : value) : bool :=
  negb (length_lt ToNumber (get formData "newPassword") 8).

(** The store updates among the calls of a log. *)
Definition store_updates (evs : list Event)
  : list (value * UserUpdateInput) :=
  flat_map (fun ev => match ev with
                      | UserUpdate k data => [(k, data)]
                      | _ => []
                      end) evs.

(** Between two worlds no store update occurred: the table is the same
    and the calls made in between hold no update. *)
Definition no_store_update {Entropy : Type} (w w' : World Entropy) : Prop :=
  users w' = users w /\
  exists calls, log w' = log w ++ calls /\ store_updates calls = [].

(** A 400 response whose body is [{ detail: message }]. *)
Definition structured_failure (message : string) (r : Response) : Prop :=
  status r = 400%Z /\
  body r = Some (VObj [("detail", VStr (utf16 message))]).

Definition is_verify (ev : Event) : bool :=
  match ev with
  | Argon2Verify _ _ => true
  | _ => false
  end.

Definition is_update (ev : Event) : bool :=
  match ev with
  | UserUpdate _ _ => true
  | _ => false
  end.

(** Every credential verification among [calls] is of the
    [currentPassword] of a body that passed both validations. *)
Definition verification_guarded {C : Collaborators} (request : Request)
  (calls : list Event) : Prop :=
  forall digest plain,
    In (Argon2Verify digest plain) calls ->
    exists formData,
      json request = Some formData /\
      plain = get formData "currentPassword" /\
      presence_ok formData = true /\
      length_ok formData = true.

(** Every store update among [calls] comes after a credential
    verification that succeeded. *)
Definition update_guarded {C : Collaborators} (calls : list Event) : Prop :=
  forall k data,
    In (UserUpdate k data) calls ->
    exists earlier digest plain later,
      calls = earlier ++ Argon2Verify digest plain :: later /\
      In (UserUpdate k data) later /\
      argon2_verify digest plain = true.

(** The calls that validate or verify a submission, or write to the
    store: reading the body, argon2, and the update. *)
Definition touches_submission (ev : Event) : bool :=
  match ev with
  | RequestJson | Argon2Verify _ _ | Argon2Hash _ | UserUpdate _ _ => true
  | CookieParse _ | FindUnique _ | CookieSerialize _ => false
  end.

End Route.

(* ===================================================================== *)
(** * The comment edit input *)
(* ===================================================================== *)

Module EditCommentInput.

(** What [handleKeyDown] reads of a React keyboard event. *)
Record KeyboardEvent : Type := {
  key : jsstring;
  metaKey : bool;
  ctrlKey : bool
}.

(** The props of the component the handler closes over; the callbacks
    [onChange], [onConfirm] and [onCancel] belong to the owner, and a call
    of one is recorded as such. *)
Record EditInputProps : Type := {
  value : jsstring
}.

Inductive Call : Type :=
| PreventDefault          (* e.preventDefault() *)
| OnConfirm               (* onConfirm() *)
| OnCancel.               (* onCancel() *)

(** [handleKeyDown]: the calls it makes, in order. *)
Definition handleKeyDown (props : EditInputProps) (e : KeyboardEvent)
  : list Call :=
  if (metaKey e || ctrlKey e) && string_eqb (key e) (utf16 "Enter") then
    [PreventDefault; OnConfirm]
  else if string_eqb (key e) (utf16 "Escape") then
    [OnCancel]
  else
    [].

End EditCommentInput.

Import Route.
Local Open Scope route_scope.

(* ===================================================================== *)
(** * A concrete set of collaborators *)
(* ===================================================================== *)

(** Small stand-ins for the collaborators, on which the handlers run by
    computation: the session token of a user is the user's identifier (a
    string), and the digest of a password is the password behind a salt
    of one code unit, drawn from a counter. *)
Module Demo.

Definition parse (cookieHeader : option jsstring) : value :=
  match cookieHeader with
  | None => VNull
  | Some token => VObj [("userId", VStr token)]
  end.

Definition serialize (payload : value) : jsstring :=
  match get payload "userId" with
  | VStr s => s
  | _ => []
  end.

Definition hash (e : nat) (plain : value) : jsstring * nat :=
  match plain with
  | VStr s => (N.of_nat e :: s, S e)
  | _ => ([N.of_nat e], S e)
  end.

Definition verify (digest : jsstring) (plain : value) : bool :=
  match digest, plain with
  | _ :: s, VStr t => string_eqb s t
  | _, _ => false
  end.

Definition check (request : Request) : M nat value :=
  fun w =>
    let session := or_else (parse (cookie request)) (VObj []) in
    if truthy (get session "userId") then (Returned session, w)
    else (Threw (Thrown (VStr (utf16 "Unauthorized"))), w).

Definition collaborators : Collaborators :=
  {| Entropy := nat;
     authCookie_parse := parse;
     authCookie_serialize := serialize;
     argon2_verify := verify;
     argon2_hash := hash;
     checkAuth := check;
     ToNumber := fun _ => PrimFloat.nan |}.

(** Two users: ["ada"], whose password is ["correct horse"], and ["bob"],
    whose password is the empty string. *)
Definition ada : User :=
  {| id := VStr (utf16 "ada");
     password := 7%N :: utf16 "correct horse";
     other := [("username", VStr (utf16 "Ada"))] |}.

Definition bob : User :=
  {| id := VStr (utf16 "bob");
     password := [9%N];
     other := [("username", VStr (utf16 "Bob"))] |}.

Definition world : World nat :=
  {| users := [ada; bob]; entropy := 42; log := [] |}.

Definition submission (token : string) (currentPassword newPassword : string)
  : Request :=
  {| cookie := Some (utf16 token);
     json := Some (VObj [("currentPassword", VStr (utf16 currentPassword));
                         ("newPassword", VStr (utf16 newPassword))]) |}.

(** Ada changes her password. *)
Definition rotate : Request :=
  submission "ada" "correct horse" "battery staple".

(** Ada submits her current password as the new one. *)
Definition unchanged : Request :=
  submission "ada" "correct horse" "correct horse".

(** Ada mistypes her current password. *)
Definition mistyped : Request :=
  submission "ada" "correct house" "battery staple".

(** Ada chooses a new password of seven characters. *)
Definition short : Request :=
  submission "ada" "correct horse" "battery".

(** A body without [newPassword]. *)
Definition missing : Request :=
  {| cookie := Some (utf16 "ada");
     json := Some (VObj [("currentPassword", VStr (utf16 "correct horse"))]) |}.

(** The body [null]. *)
Definition null_body : Request :=
  {| cookie := Some (utf16 "ada"); json := Some VNull |}.

(** Bob, whose password is empty, submits it with a new password. *)
Definition empty_current : Request :=
  submission "bob" "" "battery staple".

(** A submission without a session cookie, and one of a user that is not
    in the table. *)
Definition anonymous : Request :=
  {| cookie := None; json := json rotate |}.

Definition stale : Request :=
  submission "eve" "correct horse" "battery staple".

End Demo.

(* ===================================================================== *)
(** * The paths through the action, as a relation *)
(* ===================================================================== *)




(** The eight ways a run of [action] can go, each with its result and the
    world it leaves: the guards are those of the source, in its order. *)
Variant outcome {C : Collaborators} (request : Request) (w : World Entropy)
  : completion Response -> World Entropy -> Prop :=
| no_session :
    truthy (session_userId request) = false ->
    outcome request w
      (Returned (redirect "/login" []))
      (record w [CookieParse (cookie request)])
| no_user :
    truthy (session_userId request) = true ->
    find_row (session_userId request) (users w) = None ->
    outcome request w
      (Returned (redirect "/login" []))
      (record w [CookieParse (cookie request);
                 FindUnique (session_userId request)])
| not_json (user : User) :
    truthy (session_userId request) = true ->
    find_row (session_userId request) (users w) = Some user ->
    json request = None ->
    outcome request w
      (Threw SyntaxError)
      (record w [CookieParse (cookie request);
                 FindUnique (session_userId request); RequestJson])
| null_body (user : User) (formData : value) :
    truthy (session_userId request) = true ->
    find_row (session_userId request) (users w) = Some user ->
    json request = Some formData ->
    nullish formData = true ->
    outcome request w
      (Threw TypeError)
      (record w [CookieParse (cookie request);
                 FindUnique (session_userId request); RequestJson])
| missing (user : User) (formData : value) :
    truthy (session_userId request) = true ->
    find_row (session_userId request) (users w) = Some user ->
    json request = Some formData ->
    nullish formData = false ->
    presence_ok formData = false ->
    outcome request w
      (Returned
         (badRequest
            (detail "Current password and new password are required")))
      (record w [CookieParse (cookie request);
                 FindUnique (session_userId request); RequestJson])
| too_short (user : User) (formData : value) :
    truthy (session_userId request) = true ->
    find_row (session_userId request) (users w) = Some user ->
    json request = Some formData ->
    presence_ok formData = true ->
    length_ok formData = false ->
    outcome request w
      (Returned
         (badRequest
            (detail "New password must be at least 8 characters long")))
      (record w [CookieParse (cookie request);
                 FindUnique (session_userId request); RequestJson])
| incorrect (user : User) (formData : value) :
    truthy (session_userId request) = true ->
    find_row (session_userId request) (users w) = Some user ->
    json request = Some formData ->
    presence_ok formData = true ->
    length_ok formData = true ->
    argon2_verify (password user) (get formData "currentPassword") = false ->
    outcome request w
      (Returned (badRequest (detail "Current password is incorrect")))
      (record w [CookieParse (cookie request);
                 FindUnique (session_userId request); RequestJson;
                 Argon2Verify (password user)
                   (get formData "currentPassword")])
| rotated (user : User) (formData : value) (before after : list User) :
    truthy (session_userId request) = true ->
    find_row (session_userId request) (users w) = Some user ->
    json request = Some formData ->
    presence_ok formData = true ->
    length_ok formData = true ->
    argon2_verify (password user) (get formData "currentPassword") = true ->
    users w = before ++ user :: after ->
    Forall (fun r => key_eqb (id r) (session_userId request) = false)
      before ->
    outcome request w
      (Returned
         (redirect "/"
            [("Set-Cookie",
              authCookie_serialize (VObj [("userId", id user)]))]))
      {| users :=
           before
           ++ {| id := id user;
                 password :=
                   fst (argon2_hash (entropy w)
                          (get formData "newPassword"));
                 other := other user |}
           :: after;
         entropy :=
           snd (argon2_hash (entropy w) (get formData "newPassword"));
         log :=
           log w
           ++ [CookieParse (cookie request);
               FindUnique (session_userId request); RequestJson;
               Argon2Verify (password user)
                 (get formData "currentPassword");
               Argon2Hash (get formData "newPassword");
               UserUpdate (id user)
                 {| data_password :=
                      Some (fst (argon2_hash (entropy w)
                                   (get formData "newPassword")));
                    data_other := [] |};
               CookieSerialize (VObj [("userId", id user)])] |}.

(* ===================================================================== *)
(** * The change-password form *)
(* ===================================================================== *)

Module ChangePasswordForm.

(** [$newPassword], that is [watch("newPassword")?.length || 0], on the
    value of the field: [undefined] ([None]) until the field has one, and
    then the string typed into it. *)
Definition newPassword_length (watched : option jsstring) : nat :=
  match watched with
  | None => 0
  | Some s =>
      match List.length s with
      | 0 => 0
      | S n => S n
      end
  end.

(** The colour class of the dot beside the field:
    [$newPassword >= 8 ? "bg-green-600" : "dark:bg-neutral-700
    bg-neutral-400"]. *)
Definition indicator (watched : option jsstring) : string :=
  if Nat.leb 8 (newPassword_length watched) then "bg-green-600"
  else "dark:bg-neutral-700 bg-neutral-400".

End ChangePasswordForm.

(* ===================================================================== *)
(** * The effects of the comment edit input *)
(* ===================================================================== *)

(** The two effects of [EditCommentInput] and [handleResize], run by a
    small model of React and of the browser's timers: an instance is
    mounted, re-rendered with a new [value], left alone while time passes,
    and unmounted. *)
Module EditCommentInputEffects.

Inductive CssHeight : Type :=
| Initial                 (* no inline height *)
| Auto                    (* "auto" *)
| Px (n : Z).             (* `${n}px` *)

(** The textarea behind [inputRef]. *)
Record Textarea : Type := {
  text : jsstring;
  height : CssHeight;
  focused : bool
}.

(** An instance of the component: [inputRef.current], the pending
    [timeout] with the milliseconds it still has to wait, and the number of
    times [focus()] was called. *)
Record Instance : Type := {
  inputRef : option Textarea;
  timeout : option nat;
  focus_calls : nat
}.

Definition unmounted : Instance :=
  {| inputRef := None; timeout := None; focus_calls := 0 |}.

Inductive Event : Type :=
| Mount (value : jsstring)
| Render (value : jsstring)
| Elapse (ms : nat)
| Unmount.

Section Browser.

(** [textarea.scrollHeight], which the browser lays out from the text and
    the style of the element. *)
Variable scrollHeight : Textarea -> Z.

Definition handleResize (i : Instance) : Instance :=
  match inputRef i with
  | Some textarea =>
      let auto := {| text := text textarea;
                     height := Auto;
                     focused := focused textarea |} in
      {| inputRef := Some {| text := text auto;
                             height := Px (scrollHeight auto);
                             focused := focused auto |};
         timeout := timeout i;
         focus_calls := focus_calls i |}
  | None => i
  end.

(** The callback of [setTimeout]: [inputRef.current?.focus();
    handleResize()]. *)
Definition on_timeout (i : Instance) : Instance :=
  handleResize
    match inputRef i with
    | Some textarea =>
        {| inputRef := Some {| text := text textarea;
                               height := height textarea;
                               focused := true |};
           timeout := timeout i;
           focus_calls := S (focus_calls i) |}
    | None => i
    end.

(** One event.  Mounting creates the textarea, sets the timer of the
    first effect (100 ms) and runs the second effect; a render with
    another [value] runs the second effect again; the timer fires once its
    delay has passed; unmounting runs the cleanup, [clearTimeout]. *)
Definition step (i : Instance) (ev : Event) : Instance :=
  match ev with
  | Mount value =>
      match inputRef i with
      | Some _ => i
      | None =>
          handleResize
            {| inputRef := Some {| text := value;
                                   height := Initial;
                                   focused := false |};
               timeout := Some 100;
               focus_calls := focus_calls i |}
      end
  | Render value =>
      match inputRef i with
      | Some textarea =>
          if string_eqb value (text textarea) then i
          else
            handleResize
              {| inputRef := Some {| text := value;
                                     height := height textarea;
                                     focused := focused textarea |};
                 timeout := timeout i;
                 focus_calls := focus_calls i |}
      | None => i
      end
  | Elapse ms =>
      match timeout i with
      | Some delay =>
          if Nat.leb delay ms then
            on_timeout {| inputRef := inputRef i;
                          timeout := None;
                          focus_calls := focus_calls i |}
          else
            {| inputRef := inputRef i;
               timeout := Some (delay - ms);
               focus_calls := focus_calls i |}
      | None => i
      end
  | Unmount =>
      {| inputRef := None; timeout := None; focus_calls := focus_calls i |}
  end.

Definition run (i : Instance) (evs : list Event) : Instance :=
  fold_left step evs i.

(** The height of the textarea is the one its text asks for. *)
Definition fitted (i : Instance) : Prop :=
  match inputRef i with
  | Some textarea =>
      height textarea
      = Px (scrollHeight {| text := text textarea;
                            height := Auto;
                            focused := focused textarea |})
  | None => True
  end.

End Browser.

Definition is_mount (ev : Event) : bool :=
  match ev with
  | Mount _ => true
  | _ => false
  end.

(** The time that passes during a list of events. *)
Fixpoint elapsed (evs : list Event) : nat :=
  match evs with
  | [] => 0
  | Elapse ms :: rest => ms + elapsed rest
  | _ :: rest => elapsed rest
  end.

Definition mounts (evs : list Event) : nat :=
  List.length (filter is_mount evs).

End EditCommentInputEffects.

(* ===================================================================== *)
(** * Further concrete inputs *)
(* ===================================================================== *)

Module Scenario.

(** Ada, after [Demo.rotate], changes her password once more. *)
Definition again : Request :=
  Demo.submission "ada" "battery staple" "tr0ub4dor&3".

(** The body of [Demo.submission]. *)
Definition fields (currentPassword newPassword : string) : value :=
  VObj [("currentPassword", VStr (utf16 currentPassword));
        ("newPassword", VStr (utf16 newPassword))].

(** A body whose [newPassword] is the number 12345678. *)
Definition numeric : Request :=
  {| cookie := Some (utf16 "ada");
     json := Some (VObj [("currentPassword", VStr (utf16 "correct horse"));
                         ("newPassword", VNum 12345678%float)]) |}.

(** A body that is not JSON. *)
Definition not_json : Request :=
  {| cookie := Some (utf16 "ada"); json := None |}.

(** A layout of 20 pixels a line: one line, and one more for every line
    feed in the text. *)
Definition lines (textarea : EditCommentInputEffects.Textarea) : Z :=
  20 * Z.of_nat
         (S (List.length
               (filter (N.eqb 10) (EditCommentInputEffects.text textarea)))).

End Scenario.

(* ===================================================================== *)
(** * JavaScript values: basic facts *)
(* ===================================================================== *)

Example falsy_values :
  map truthy
    [VUndefined; VNull; VBool false; VNum 0%float; VNum (-0)%float;
     VNum PrimFloat.nan; VStr []]
  = [false; false; false; false; false; false; false].
Proof. reflexivity. Qed.

Example truthy_values :
  map truthy
    [VBool true; VNum 0.5%float; VStr (utf16 "0"); VArr []; VObj []]
  = [true; true; true; true; true].
Proof. reflexivity. Qed.

Example length_lt_values (ToNumber : value -> float) :
  map (fun v => length_lt ToNumber v 8)
    [VStr (utf16 "1234567"); VStr (utf16 "12345678"); VArr [VNull];
     VNum 7%float; VBool true; VObj []; VObj [("length", VNum 7.5%float)]]
  = [true; false; true; false; false; false; true].
Proof. reflexivity. Qed.

Lemma string_eqb_refl (s : jsstring) : string_eqb s s = true.
Proof.
  unfold string_eqb. destruct (list_eq_dec N.eq_dec s s); congruence.
Qed.

Lemma string_eqb_eq (s t : jsstring) : string_eqb s t = true -> s = t.
Proof.
  unfold string_eqb. destruct (list_eq_dec N.eq_dec s t); congruence.
Qed.

Lemma truthy_not_nullish (v : value) : truthy v = true -> nullish v = false.
Proof. destruct v; simpl; congruence. Qed.

Lemma truthy_or_else_object (v : value) : truthy (or_else v (VObj [])) = true.
Proof. unfold or_else. destruct (truthy v) eqn:E; auto. Qed.

(** [const { k } = v || {}] never throws. *)
Lemma destructure_or_else (v : value) (k : string) :
  destructure (or_else v (VObj [])) k
  = Returned (get (or_else v (VObj [])) k).
Proof.
  unfold destructure.
  now rewrite (truthy_not_nullish _ (truthy_or_else_object v)).
Qed.

(** A property that holds a string belongs to an object. *)
Lemma get_defined_not_nullish (o : value) (k : string) :
  get o k <> VUndefined -> nullish o = false.
Proof. destruct o; simpl; congruence. Qed.

Lemma truthy_defined (v : value) : truthy v = true -> v <> VUndefined.
Proof. destruct v; simpl; congruence. Qed.

(* ===================================================================== *)
(** * The [User] table: basic facts *)
(* ===================================================================== *)

Lemma key_eqb_eq (a b : value) : key_eqb a b = true -> a = b.
Proof.
  destruct a, b; simpl; try discriminate.
  - intros H. apply FloatAxioms.Leibniz.eqb_spec in H. congruence.
  - intros H. apply string_eqb_eq in H. congruence.
Qed.

Lemma filter_all {A : Type} (l : list A) : filter (fun _ => true) l = l.
Proof. induction l as [|x l IH]; simpl; congruence. Qed.

(** An update whose [data] names the password alone leaves the key and
    the other columns of the row as they were. *)
Lemma apply_data_password (p : jsstring) (u : User) :
  apply_data {| data_password := Some p; data_other := [] |} u
  = {| id := id u; password := p; other := other u |}.
Proof. unfold apply_data. simpl. now rewrite filter_all. Qed.

(** The row [findUnique] returns is the first one with the key. *)
Lemma find_row_split (k : value) (rows : list User) (u : User) :
  find_row k rows = Some u ->
  id u = k /\
  exists before after,
    rows = before ++ u :: after /\
    Forall (fun r => key_eqb (id r) k = false) before.
Proof.
  unfold find_row. induction rows as [|r rows IH]; simpl; [discriminate|].
  destruct (key_eqb (id r) k) eqn:E.
  - intros [= ->]. split; [now apply key_eqb_eq|].
    now exists [], rows.
  - intros H. destruct (IH H) as (Hid & before & after & -> & Hb).
    split; [assumption|]. exists (r :: before), after. split; auto.
Qed.

Lemma update_row_at (k : value) (data : UserUpdateInput)
  (before after : list User) (u : User) :
  Forall (fun r => key_eqb (id r) k = false) before ->
  key_eqb (id u) k = true ->
  update_row k data (before ++ u :: after)
  = Some (apply_data data u, before ++ apply_data data u :: after).
Proof.
  intros Hb Hu. induction Hb as [|r before Hr Hb IH]; simpl.
  - now rewrite Hu.
  - now rewrite Hr, IH.
Qed.

Lemma find_row_at (k : value) (before after : list User) (u : User) :
  Forall (fun r => key_eqb (id r) k = false) before ->
  key_eqb (id u) k = true ->
  find_row k (before ++ u :: after) = Some u.
Proof.
  unfold find_row. intros Hb Hu.
  induction Hb as [|r before Hr Hb IH]; simpl.
  - now rewrite Hu.
  - now rewrite Hr.
Qed.

Lemma find_row_key (k : value) (rows : list User) (u : User) :
  find_row k rows = Some u -> key_eqb (id u) k = true.
Proof.
  unfold find_row. intros H. now apply find_some in H.
Qed.

(* ===================================================================== *)
(** * The paths through [action] *)
(* ===================================================================== *)

Ltac run :=
  unfold action, authCookie.parse, authCookie.serialize, argon2.verify,
    argon2.hash, prisma_user.findUnique, prisma_user.update, request_json,
    bind, emit, ret, throw, lift, record;
  cbn [users entropy log fst snd].

Ltac enter userId :=
  run; rewrite destructure_or_else;
  match goal with
  | |- context [get (or_else (authCookie_parse (cookie ?r)) _) "userId"] =>
      fold (session_userId r)
  end;
  fold userId.

Ltac tidy_log :=
  cbn [negb users entropy log fst snd]; rewrite <- ?app_assoc; cbn [app].

Section Paths.

Context {C : Collaborators}.

Variable request : Request.
Variable w : World Entropy.

Let userId : value := session_userId request.
Let parsed : Event := CookieParse (cookie request).
Let looked_up : Event := FindUnique userId.

Lemma action_no_session :
  truthy userId = false ->
  action request w = (Returned (redirect "/login" []), record w [parsed]).
Proof.
  intros H. enter userId. now rewrite H.
Qed.

Lemma action_no_user :
  truthy userId = true ->
  find_row userId (users w) = None ->
  action request w
  = (Returned (redirect "/login" []), record w [parsed; looked_up]).
Proof.
  intros H Hf. enter userId. rewrite H. cbn [negb users].
  rewrite Hf. tidy_log. reflexivity.
Qed.

Variable user : User.
Hypothesis session : truthy userId = true.
Hypothesis found : find_row userId (users w) = Some user.

Lemma action_not_json :
  json request = None ->
  action request w
  = (Threw SyntaxError, record w [parsed; looked_up; RequestJson]).
Proof.
  intros Hj. enter userId. rewrite session. cbn [negb users].
  rewrite found, Hj. tidy_log. reflexivity.
Qed.

Variable formData : value.
Hypothesis submitted : json request = Some formData.

Let currentPassword : value := get formData "currentPassword".
Let newPassword : value := get formData "newPassword".

Lemma action_nullish_body :
  nullish formData = true ->
  action request w
  = (Threw TypeError, record w [parsed; looked_up; RequestJson]).
Proof.
  intros Hn. enter userId. rewrite session. cbn [negb users].
  rewrite found, submitted. unfold destructure. rewrite Hn.
  tidy_log. reflexivity.
Qed.

Hypothesis destructurable : nullish formData = false.

Ltac validate :=
  enter userId; rewrite session; cbn [negb users];
  rewrite found, submitted; unfold destructure; rewrite destructurable;
  rewrite <- negb_andb; fold (presence_ok formData).

Lemma action_missing :
  presence_ok formData = false ->
  action request w
  = (Returned
       (badRequest
          (detail "Current password and new password are required")),
     record w [parsed; looked_up; RequestJson]).
Proof.
  intros Hm. validate. rewrite Hm. tidy_log. reflexivity.
Qed.

Hypothesis present : presence_ok formData = true.

Lemma action_too_short :
  length_ok formData = false ->
  action request w
  = (Returned
       (badRequest
          (detail "New password must be at least 8 characters long")),
     record w [parsed; looked_up; RequestJson]).
Proof.
  intros Hs. apply negb_false_iff in Hs.
  validate. rewrite present. cbn [negb]. rewrite Hs.
  tidy_log. reflexivity.
Qed.

Hypothesis long_enough : length_ok formData = true.

Let verified : Event := Argon2Verify (password user) currentPassword.

Lemma action_incorrect :
  argon2_verify (password user) currentPassword = false ->
  action request w
  = (Returned (badRequest (detail "Current password is incorrect")),
     record w [parsed; looked_up; RequestJson; verified]).
Proof.
  intros Hv. pose proof long_enough as Hl. apply negb_true_iff in Hl.
  validate. rewrite present. cbn [negb]. rewrite Hl.
  fold currentPassword. rewrite Hv. tidy_log. reflexivity.
Qed.

Let hashed : jsstring := fst (argon2_hash (entropy w) newPassword).
Let payload : value := VObj [("userId", id user)].

Lemma action_success :
  argon2_verify (password user) currentPassword = true ->
  exists before after,
    users w = before ++ user :: after /\
    Forall (fun r => key_eqb (id r) userId = false) before /\
    action request w
    = (Returned
         (redirect "/" [("Set-Cookie", authCookie_serialize payload)]),
       {| users :=
            before
            ++ {| id := id user; password := hashed; other := other user |}
            :: after;
          entropy := snd (argon2_hash (entropy w) newPassword);
          log :=
            log w
            ++ [parsed; looked_up; RequestJson; verified;
                Argon2Hash newPassword;
                UserUpdate (id user)
                  {| data_password := Some hashed; data_other := [] |};
                CookieSerialize payload] |}).
Proof.
  intros Hv. pose proof long_enough as Hl. apply negb_true_iff in Hl.
  destruct (find_row_split _ _ _ found)
    as (Hid & before & after & Hrows & Hb).
  exists before, after. split; [assumption|]. split; [assumption|].
  validate. rewrite present. cbn [negb]. rewrite Hl.
  fold currentPassword newPassword. rewrite Hv. tidy_log.
  unfold hashed.
  destruct (argon2_hash (entropy w) newPassword) as [digest e'].
  tidy_log. rewrite Hrows, Hid.
  rewrite (update_row_at userId _ before after user Hb).
  - rewrite apply_data_password. unfold payload. rewrite Hid.
    tidy_log. reflexivity.
  - exact (find_row_key _ _ _ found).
Qed.

End Paths.

Lemma presence_not_nullish (formData : value) :
  presence_ok formData = true -> nullish formData = false.
Proof.
  unfold presence_ok. intros H. apply andb_prop in H as [H _].
  apply truthy_defined in H. now apply get_defined_not_nullish in H.
Qed.

Lemma record_no_store_update {Entropy : Type} (w : World Entropy)
  (calls : list Event) :
  store_updates calls = [] -> no_store_update w (record w calls).
Proof. intros H. split; [reflexivity|]. now exists calls. Qed.

Lemma badRequest_structured (message : string) :
  structured_failure message (badRequest (detail message)).
Proof. now split. Qed.

Lemma no_verify (calls : list Event) :
  forallb (fun ev => negb (is_verify ev)) calls = true ->
  forall digest plain, ~ In (Argon2Verify digest plain) calls.
Proof.
  intros Hq d p Hin. rewrite forallb_forall in Hq.
  now apply Hq in Hin.
Qed.

Lemma no_update (calls : list Event) :
  forallb (fun ev => negb (is_update ev)) calls = true ->
  forall k data, ~ In (UserUpdate k data) calls.
Proof.
  intros Hq k d Hin. rewrite forallb_forall in Hq.
  now apply Hq in Hin.
Qed.

Lemma no_update_store_updates (calls : list Event) :
  forallb (fun ev => negb (is_update ev)) calls = true ->
  store_updates calls = [].
Proof.
  induction calls as [|ev calls IH]; [reflexivity|].
  cbn [forallb]. intros H. apply andb_prop in H as [Hev H].
  unfold store_updates. cbn [flat_map].
  destruct ev; try discriminate; now apply IH.
Qed.

(** A path on which nothing is verified and nothing is updated. *)
Lemma quiet_path {C : Collaborators} (request : Request)
  (w : World Entropy) (r : completion Response) (calls : list Event) :
  forallb (fun ev => negb (is_verify ev)) calls = true ->
  forallb (fun ev => negb (is_update ev)) calls = true ->
  exists calls',
    log (record w calls) = log w ++ calls' /\
    verification_guarded request calls' /\
    update_guarded calls' /\
    ((forall token, r <> Returned (redirect "/" [("Set-Cookie", token)])) ->
     no_store_update w (record w calls)).
Proof.
  intros Hv Hu. exists calls. split; [reflexivity|].
  split; [intros d p Hin; now apply (no_verify _ Hv) in Hin|].
  split; [intros k d Hin; now apply (no_update _ Hu) in Hin|].
  intros _. apply record_no_store_update.
  now apply no_update_store_updates.
Qed.

(* ===================================================================== *)
(** * The claims about the change-password route *)
(* ===================================================================== *)

Section Claims.

Context {C : Collaborators}.

Variable request : Request.
Variable w : World Entropy.

(** C6.  A request whose session cookie is missing or resolves to no user
    identifier, and a request whose user identifier matches no row of the
    [User] table, is answered by a redirect to [/login], which is not a
    structured error payload; the only calls made are the parse of the
    cookie and, at most, the lookup of the user: the body is not read,
    nothing is verified or hashed, and the store is not updated.  The codec
    is taken to parse a missing cookie header to [null]. *)
Theorem action_redirects_unauthenticated :
  authCookie_parse None = VNull ->
  cookie request = None
  \/ truthy (session_userId request) = false
  \/ find_row (session_userId request) (users w) = None ->
  exists calls,
    action request w = (Returned (redirect "/login" []), record w calls) /\
    Forall (fun ev => touches_submission ev = false) calls /\
    no_store_update w (record w calls) /\
    forall payload, redirect "/login" [] <> badRequest payload.
Proof.
  intros Hcodec Hcase.
  assert (Hnav : forall payload, redirect "/login" [] <> badRequest payload)
    by (intros payload; discriminate).
  destruct (truthy (session_userId request)) eqn:Hs.
  - destruct Hcase as [Hnone | [Hfalse | Hrow]].
    + unfold session_userId in Hs. rewrite Hnone, Hcodec in Hs. discriminate.
    + discriminate.
    + exists [CookieParse (cookie request);
              FindUnique (session_userId request)].
      split; [now apply action_no_user|].
      split; [repeat constructor|].
      split; [now apply record_no_store_update | exact Hnav].
  - exists [CookieParse (cookie request)].
    split; [now apply action_no_session|].
    split; [repeat constructor|].
    split; [now apply record_no_store_update | exact Hnav].
Qed.

(** C7.  The loader makes the one session check.  When the check throws,
    whatever it throws, the loader answers with a redirect to [/login] and
    not with [null], so the page is not rendered; when the check succeeds
    the loader returns [null].  The loader has no effect of its own: the
    world it leaves is the one the check left, which is the world it
    started in when the check has no side effect. *)
Theorem loader_session_guard :
  (forall error w',
      checkAuth request w = (Threw error, w') ->
      loader request w = (Returned (Some (redirect "/login" [])), w')
      /\ fst (loader request w) <> Returned None) /\
  (forall session w',
      checkAuth request w = (Returned session, w') ->
      loader request w = (Returned None, w')) /\
  (snd (checkAuth request w) = w -> snd (loader request w) = w).
Proof.
  unfold loader, bind, attempt, ret.
  destruct (checkAuth request w) as [[session | error] w1]; cbn [fst snd].
  - split; [intros ? ? [=]|]. split; [now intros ? ? [= _ <-] | auto].
  - split; [intros ? ? [= _ <-]; split; [reflexivity | discriminate]|].
    split; [intros ? ? [=] | auto].
Qed.

(** C5.  In every execution of the action, the call that verifies the
    credential is made only when the body passed the presence and the
    length validation, and the call that updates the store is made only
    after a verification that succeeded; so whenever the result is not the
    success redirect (a validation or verification failure, a redirect to
    [/login], an exception) no store update occurred. *)
Theorem action_validates_verifies_then_updates
  (r : completion Response) (w' : World Entropy) :
  action request w = (r, w') ->
  exists calls,
    log w' = log w ++ calls /\
    verification_guarded request calls /\
    update_guarded calls /\
    ((forall token, r <> Returned (redirect "/" [("Set-Cookie", token)])) ->
     no_store_update w w').
Proof.
  intros Hrun.
  destruct (truthy (session_userId request)) eqn:Hs.
  2:{ rewrite (action_no_session request w Hs) in Hrun.
      injection Hrun as <- <-. now apply quiet_path. }
  destruct (find_row (session_userId request) (users w)) as [u|] eqn:Hf.
  2:{ rewrite (action_no_user request w Hs Hf) in Hrun.
      injection Hrun as <- <-. now apply quiet_path. }
  destruct (json request) as [fd|] eqn:Hj.
  2:{ rewrite (action_not_json request w u Hs Hf Hj) in Hrun.
      injection Hrun as <- <-. now apply quiet_path. }
  destruct (nullish fd) eqn:Hn.
  { rewrite (action_nullish_body request w u Hs Hf fd Hj Hn) in Hrun.
    injection Hrun as <- <-. now apply quiet_path. }
  destruct (presence_ok fd) eqn:Hp.
  2:{ rewrite (action_missing request w u Hs Hf fd Hj Hn Hp) in Hrun.
      injection Hrun as <- <-. now apply quiet_path. }
  destruct (length_ok fd) eqn:Hl.
  2:{ rewrite (action_too_short request w u Hs Hf fd Hj Hn Hp Hl) in Hrun.
      injection Hrun as <- <-. now apply quiet_path. }
  assert (Hguard : forall calls,
             forallb (fun ev => negb (is_verify ev)) calls = true ->
             verification_guarded request
               ([CookieParse (cookie request);
                 FindUnique (session_userId request); RequestJson;
                 Argon2Verify (password u) (get fd "currentPassword")]
                ++ calls)).
  { intros calls Hq d p Hin. exists fd.
    destruct Hin as [Hin | [Hin | [Hin | [Hin | Hin]]]]; try discriminate.
    - injection Hin as _ <-. auto.
    - now apply no_verify in Hin. }
  destruct (argon2_verify (password u) (get fd "currentPassword")) eqn:Hv.
  - destruct (action_success request w u Hs Hf fd Hj Hn Hp Hl Hv)
      as (before & after & _ & _ & Hsuccess).
    rewrite Hsuccess in Hrun. injection Hrun as <- <-.
    eexists. split; [reflexivity|]. split; [|split].
    + now apply (Hguard [_; _; _]).
    + intros k d Hin.
      exists [CookieParse (cookie request);
              FindUnique (session_userId request); RequestJson],
        (password u), (get fd "currentPassword").
      eexists. split; [reflexivity|]. split; [|exact Hv].
      destruct Hin as [Hin | [Hin | [Hin | [Hin | Hin]]]];
        try discriminate. exact Hin.
    + intros Hfail. now destruct (Hfail _ eq_refl).
  - rewrite (action_incorrect request w u Hs Hf fd Hj Hn Hp Hl Hv) in Hrun.
    injection Hrun as <- <-.
    eexists. split; [reflexivity|]. split; [|split].
    + now apply (Hguard []).
    + intros k d Hin. now apply no_update in Hin.
    + intros _. now apply record_no_store_update.
Qed.

Variable user : User.
Hypothesis session : truthy (session_userId request) = true.
Hypothesis found : find_row (session_userId request) (users w) = Some user.

Variable formData : value.
Hypothesis submitted : json request = Some formData.

(** C3, as amended.  When the body is a JSON value other than [null] in
    which [currentPassword] or [newPassword] is absent or falsy (the empty
    string, [null], [false], [0]), the action answers 400 with the detail
    "Current password and new password are required" and makes no store
    update. *)
Theorem action_requires_both_passwords :
  nullish formData = false ->
  truthy (get formData "currentPassword") = false
  \/ truthy (get formData "newPassword") = false ->
  exists response w',
    action request w = (Returned response, w') /\
    structured_failure "Current password and new password are required"
      response /\
    no_store_update w w'.
Proof.
  intros Hobj Hmiss.
  assert (Hp : presence_ok formData = false).
  { unfold presence_ok. destruct Hmiss as [-> | ->]; auto using andb_false_r. }
  eexists _, _. split.
  - now apply (action_missing request w user session found formData).
  - split; [apply badRequest_structured|].
    now apply record_no_store_update.
Qed.

(** C4.  When both fields are present and [newPassword] is a string of
    fewer than 8 code units, the action answers 400 with the detail "New
    password must be at least 8 characters long" and makes no store
    update. *)
Theorem action_rejects_short_password (new : jsstring) :
  presence_ok formData = true ->
  get formData "newPassword" = VStr new ->
  List.length new < 8 ->
  exists response w',
    action request w = (Returned response, w') /\
    structured_failure "New password must be at least 8 characters long"
      response /\
    no_store_update w w'.
Proof.
  intros Hp Hnew Hlen.
  assert (Hl : length_ok formData = false).
  { unfold length_ok. rewrite Hnew. cbn [length_lt].
    apply negb_false_iff. now apply Nat.ltb_lt. }
  eexists _, _. split.
  - apply (action_too_short request w user session found formData);
      auto using presence_not_nullish.
  - split; [apply badRequest_structured|].
    now apply record_no_store_update.
Qed.

(** C2.  When the submission passes the presence and the length
    validation and [currentPassword] does not verify against the stored
    hash, the action answers 400 with the detail "Current password is
    incorrect" and makes no store update. *)
Theorem action_rejects_wrong_password :
  presence_ok formData = true ->
  length_ok formData = true ->
  argon2_verify (password user) (get formData "currentPassword") = false ->
  exists response w',
    action request w = (Returned response, w') /\
    structured_failure "Current password is incorrect" response /\
    no_store_update w w'.
Proof.
  intros Hp Hl Hv. eexists _, _. split.
  - apply (action_incorrect request w user session found formData);
      auto using presence_not_nullish.
  - split; [apply badRequest_structured|].
    now apply record_no_store_update.
Qed.

(** The success path on string passwords, shared by the claims below. *)
Lemma rotation (current new : jsstring) :
  get formData "currentPassword" = VStr current ->
  current <> [] ->
  get formData "newPassword" = VStr new ->
  argon2_verify (password user) (VStr current) = true ->
  8 <= List.length new ->
  let hashed := fst (argon2_hash (entropy w) (VStr new)) in
  exists w',
    action request w
    = (Returned
         (redirect "/"
            [("Set-Cookie",
              authCookie_serialize
                (VObj [("userId", session_userId request)]))]),
       w') /\
    (exists calls,
        log w' = log w ++ calls /\
        store_updates calls
        = [(session_userId request,
            {| data_password := Some hashed; data_other := [] |})]) /\
    find_row (session_userId request) (users w')
    = Some {| id := session_userId request;
              password := hashed;
              other := other user |}.
Proof.
  intros Hcur Hne Hnew Hv Hlen hashed.
  assert (Hp : presence_ok formData = true).
  { unfold presence_ok. rewrite Hcur, Hnew.
    destruct current; [congruence|]. destruct new; [simpl in Hlen; lia|].
    reflexivity. }
  assert (Hl : length_ok formData = true).
  { unfold length_ok. rewrite Hnew. cbn [length_lt].
    apply negb_true_iff. apply Nat.ltb_ge. exact Hlen. }
  rewrite <- Hcur in Hv.
  destruct (action_success request w user session found formData submitted
              (presence_not_nullish _ Hp) Hp Hl Hv)
    as (before & after & Hrows & Hb & Hrun).
  destruct (find_row_split _ _ _ found) as (Hid & _).
  rewrite Hnew, Hid in Hrun.
  eexists. split; [exact Hrun|]. cbn [log users]. split.
  - eexists. split; reflexivity.
  - apply find_row_at; [exact Hb|]. cbn [id].
    pose proof (find_row_key _ _ _ found) as Hk. now rewrite Hid in Hk.
Qed.

(** C1, as amended.  When the session is valid, its user exists,
    [currentPassword] is a non-empty string that verifies against the
    stored hash and [newPassword] is a string of at least 8 code units, the
    action makes exactly one store update, which writes the hash of
    [newPassword] to the row of the session's user; the stored hash then
    verifies against [newPassword]; and the result is a redirect to [/]
    whose [Set-Cookie] header is the session token serialized for the same
    user identifier.  The hash primitive is taken to verify what it
    hashed. *)
Theorem action_rotates_password (current new : jsstring) :
  (forall e p, argon2_verify (fst (argon2_hash e (VStr p))) (VStr p) = true) ->
  get formData "currentPassword" = VStr current ->
  current <> [] ->
  get formData "newPassword" = VStr new ->
  argon2_verify (password user) (VStr current) = true ->
  8 <= List.length new ->
  exists w',
    action request w
    = (Returned
         (redirect "/"
            [("Set-Cookie",
              authCookie_serialize
                (VObj [("userId", session_userId request)]))]),
       w') /\
    (exists calls,
        log w' = log w ++ calls /\
        store_updates calls
        = [(session_userId request,
            {| data_password := Some (fst (argon2_hash (entropy w) (VStr new)));
               data_other := [] |})]) /\
    find_row (session_userId request) (users w')
    = Some {| id := session_userId request;
              password := fst (argon2_hash (entropy w) (VStr new));
              other := other user |} /\
    argon2_verify (fst (argon2_hash (entropy w) (VStr new))) (VStr new)
    = true.
Proof.
  intros Hprim Hcur Hne Hnew Hv Hlen.
  destruct (rotation current new Hcur Hne Hnew Hv Hlen)
    as (w' & Hrun & Hcalls & Hrow).
  exists w'. split; [exact Hrun|]. split; [exact Hcalls|].
  split; [exact Hrow | apply Hprim].
Qed.

(** C9.  The new password need not differ from the current one: when
    [newPassword] is the same string as a [currentPassword] that verifies,
    and has at least 8 code units, the submission is accepted; the store
    is updated with a hash of that same password and the success redirect
    is returned. *)
Theorem action_accepts_unchanged_password (same : jsstring) :
  get formData "currentPassword" = VStr same ->
  get formData "newPassword" = VStr same ->
  argon2_verify (password user) (VStr same) = true ->
  8 <= List.length same ->
  exists w' token,
    action request w
    = (Returned (redirect "/" [("Set-Cookie", token)]), w') /\
    (exists calls,
        log w' = log w ++ calls /\
        store_updates calls
        = [(session_userId request,
            {| data_password := Some (fst (argon2_hash (entropy w) (VStr same)));
               data_other := [] |})]) /\
    find_row (session_userId request) (users w')
    = Some {| id := session_userId request;
              password := fst (argon2_hash (entropy w) (VStr same));
              other := other user |}.
Proof.
  intros Hcur Hnew Hv Hlen.
  assert (Hne : same <> []) by (destruct same; [simpl in Hlen; lia | congruence]).
  destruct (rotation same same Hcur Hne Hnew Hv Hlen)
    as (w' & Hrun & Hcalls & Hrow).
  now exists w', (authCookie_serialize (VObj [("userId", session_userId request)])).
Qed.

(** C10.  On the success path the table after the action is the table
    before it with one row replaced: the row of the session's user, the
    first with that key.  The replaced row keeps its key and its other
    columns and has the new hash for a password; every other row is the
    same. *)
Theorem action_updates_only_the_password :
  presence_ok formData = true ->
  length_ok formData = true ->
  argon2_verify (password user) (get formData "currentPassword") = true ->
  exists before after,
    users w = before ++ user :: after /\
    id user = session_userId request /\
    Forall (fun r => key_eqb (id r) (session_userId request) = false) before /\
    users (snd (action request w))
    = before
      ++ {| id := id user;
            password :=
              fst (argon2_hash (entropy w) (get formData "newPassword"));
            other := other user |}
      :: after.
Proof.
  intros Hp Hl Hv.
  destruct (action_success request w user session found formData submitted
              (presence_not_nullish _ Hp) Hp Hl Hv)
    as (before & after & Hrows & Hb & Hrun).
  destruct (find_row_split _ _ _ found) as (Hid & _).
  exists before, after. rewrite Hrun. cbn [snd users]. auto.
Qed.

End Claims.

(* ===================================================================== *)
(** * The claim about the comment edit input *)
(* ===================================================================== *)

(** C8.  Whatever the text of the input: on Enter with the Control or the
    Command (meta) key held, the handler prevents the default action, so
    that no line break is inserted, and calls [onConfirm]; on Escape it
    calls [onCancel]. *)
Theorem handleKeyDown_confirms_and_cancels
  (props : EditCommentInput.EditInputProps)
  (e : EditCommentInput.KeyboardEvent) :
  (EditCommentInput.key e = utf16 "Enter" ->
   EditCommentInput.metaKey e = true \/ EditCommentInput.ctrlKey e = true ->
   EditCommentInput.handleKeyDown props e
   = [EditCommentInput.PreventDefault; EditCommentInput.OnConfirm]) /\
  (EditCommentInput.key e = utf16 "Escape" ->
   EditCommentInput.handleKeyDown props e = [EditCommentInput.OnCancel]).
Proof.
  unfold EditCommentInput.handleKeyDown. split.
  - intros -> Hmod.
    assert (Hm : EditCommentInput.metaKey e || EditCommentInput.ctrlKey e
                 = true)
      by (destruct Hmod as [-> | ->]; auto using orb_true_r).
    now rewrite Hm.
  - intros ->. rewrite andb_false_r. reflexivity.
Qed.

(* ===================================================================== *)
(** * The claims at concrete requests *)
(* ===================================================================== *)

#[local] Existing Instance Demo.collaborators.

(** The stand-in for argon2 verifies what it hashed. *)
Lemma demo_hash_verifies (e : nat) (p : jsstring) :
  Demo.verify (fst (Demo.hash e (VStr p))) (VStr p) = true.
Proof. apply string_eqb_refl. Qed.

(** C1, as stated, fails when the stored credential is the hash of the
    empty password: the empty [currentPassword] verifies against it and
    [newPassword] has 14 code units, yet the presence validation answers
    400 and nothing is written. *)
Lemma empty_current_password_is_rejected :
  truthy (session_userId Demo.empty_current) = true /\
  find_row (session_userId Demo.empty_current) (users Demo.world)
  = Some Demo.bob /\
  get (VObj [("currentPassword", VStr []);
             ("newPassword", VStr (utf16 "battery staple"))])
    "currentPassword" = VStr [] /\
  argon2_verify (password Demo.bob) (VStr []) = true /\
  8 <= List.length (utf16 "battery staple") /\
  action Demo.empty_current Demo.world
  = (Returned
       (badRequest
          (detail "Current password and new password are required")),
     record Demo.world
       [CookieParse (Some (utf16 "bob")); FindUnique (VStr (utf16 "bob"));
        RequestJson]).
Proof. repeat split. vm_compute. lia. Qed.

(** C3, as stated, fails on the body [null], in which both fields are
    absent: destructuring it throws a TypeError, and the action answers
    with no structured failure. *)
Lemma null_body_throws :
  truthy (session_userId Demo.null_body) = true /\
  find_row (session_userId Demo.null_body) (users Demo.world)
  = Some Demo.ada /\
  json Demo.null_body = Some VNull /\
  action Demo.null_body Demo.world
  = (Threw TypeError,
     record Demo.world
       [CookieParse (Some (utf16 "ada")); FindUnique (VStr (utf16 "ada"));
        RequestJson]).
Proof. repeat split. Qed.

(** Ada changes her password: the hypotheses hold at [Demo.rotate]. *)
Lemma action_rotates_password_witness :
  exists w',
    action Demo.rotate Demo.world
    = (Returned (redirect "/" [("Set-Cookie", utf16 "ada")]), w') /\
    (exists calls,
        log w' = log Demo.world ++ calls /\
        store_updates calls
        = [(VStr (utf16 "ada"),
            {| data_password := Some (42%N :: utf16 "battery staple");
               data_other := [] |})]) /\
    find_row (VStr (utf16 "ada")) (users w')
    = Some {| id := VStr (utf16 "ada");
              password := 42%N :: utf16 "battery staple";
              other := other Demo.ada |} /\
    Demo.verify (42%N :: utf16 "battery staple")
      (VStr (utf16 "battery staple")) = true.
Proof.
  apply (action_rotates_password (C := Demo.collaborators)
           Demo.rotate Demo.world Demo.ada eq_refl eq_refl
           _ eq_refl (utf16 "correct horse") (utf16 "battery staple")
           demo_hash_verifies eq_refl).
  - discriminate.
  - reflexivity.
  - reflexivity.
  - vm_compute. lia.
Defined.

(** Ada mistypes her current password. *)
Lemma action_rejects_wrong_password_witness :
  argon2_verify (password Demo.ada) (VStr (utf16 "correct house")) = false /\
  exists response w',
    action Demo.mistyped Demo.world = (Returned response, w') /\
    structured_failure "Current password is incorrect" response /\
    no_store_update Demo.world w'.
Proof.
  split; [reflexivity|].
  apply (action_rejects_wrong_password (C := Demo.collaborators)
           Demo.mistyped Demo.world Demo.ada eq_refl eq_refl
           _ eq_refl);
    reflexivity.
Defined.

(** A body that has no [newPassword]. *)
Lemma action_requires_both_passwords_witness :
  get (VObj [("currentPassword", VStr (utf16 "correct horse"))]) "newPassword"
  = VUndefined /\
  exists response w',
    action Demo.missing Demo.world = (Returned response, w') /\
    structured_failure "Current password and new password are required"
      response /\
    no_store_update Demo.world w'.
Proof.
  split; [reflexivity|].
  apply (action_requires_both_passwords (C := Demo.collaborators)
           Demo.missing Demo.world Demo.ada eq_refl eq_refl
           _ eq_refl eq_refl).
  right. reflexivity.
Defined.

(** A new password of seven code units. *)
Lemma action_rejects_short_password_witness :
  List.length (utf16 "battery") = 7 /\
  exists response w',
    action Demo.short Demo.world = (Returned response, w') /\
    structured_failure "New password must be at least 8 characters long"
      response /\
    no_store_update Demo.world w'.
Proof.
  split; [reflexivity|].
  apply (action_rejects_short_password (C := Demo.collaborators)
           Demo.short Demo.world Demo.ada eq_refl eq_refl
           _ eq_refl (utf16 "battery") eq_refl eq_refl).
  vm_compute. lia.
Defined.

(** The order of the calls when Ada changes her password. *)
Lemma action_validates_verifies_then_updates_witness :
  exists calls,
    log (snd (action Demo.rotate Demo.world)) = log Demo.world ++ calls /\
    verification_guarded Demo.rotate calls /\
    update_guarded calls /\
    ((forall token,
         fst (action Demo.rotate Demo.world)
         <> Returned (redirect "/" [("Set-Cookie", token)])) ->
     no_store_update Demo.world (snd (action Demo.rotate Demo.world))).
Proof.
  apply (action_validates_verifies_then_updates (C := Demo.collaborators)
           Demo.rotate Demo.world).
  apply surjective_pairing.
Defined.

(** A request without a cookie, and the session of a user that is not in
    the table. *)
Lemma action_redirects_unauthenticated_witness :
  (exists calls,
      action Demo.anonymous Demo.world
      = (Returned (redirect "/login" []), record Demo.world calls) /\
      Forall (fun ev => touches_submission ev = false) calls /\
      no_store_update Demo.world (record Demo.world calls) /\
      forall payload, redirect "/login" [] <> badRequest payload) /\
  (exists calls,
      action Demo.stale Demo.world
      = (Returned (redirect "/login" []), record Demo.world calls) /\
      Forall (fun ev => touches_submission ev = false) calls /\
      no_store_update Demo.world (record Demo.world calls) /\
      forall payload, redirect "/login" [] <> badRequest payload).
Proof.
  split.
  - apply (action_redirects_unauthenticated (C := Demo.collaborators)
             Demo.anonymous Demo.world eq_refl).
    left. reflexivity.
  - apply (action_redirects_unauthenticated (C := Demo.collaborators)
             Demo.stale Demo.world eq_refl).
    right. right. reflexivity.
Defined.

(** Ada submits her current password as the new one. *)
Lemma action_accepts_unchanged_password_witness :
  exists w' token,
    action Demo.unchanged Demo.world
    = (Returned (redirect "/" [("Set-Cookie", token)]), w') /\
    (exists calls,
        log w' = log Demo.world ++ calls /\
        store_updates calls
        = [(VStr (utf16 "ada"),
            {| data_password := Some (42%N :: utf16 "correct horse");
               data_other := [] |})]) /\
    find_row (VStr (utf16 "ada")) (users w')
    = Some {| id := VStr (utf16 "ada");
              password := 42%N :: utf16 "correct horse";
              other := other Demo.ada |}.
Proof.
  apply (action_accepts_unchanged_password (C := Demo.collaborators)
           Demo.unchanged Demo.world Demo.ada eq_refl eq_refl
           _ eq_refl (utf16 "correct horse") eq_refl eq_refl eq_refl).
  vm_compute. lia.
Defined.

(** The table after Ada changed her password. *)
Lemma action_updates_only_the_password_witness :
  exists before after,
    users Demo.world = before ++ Demo.ada :: after /\
    id Demo.ada = VStr (utf16 "ada") /\
    Forall (fun r => key_eqb (id r) (VStr (utf16 "ada")) = false) before /\
    users (snd (action Demo.rotate Demo.world))
    = before
      ++ {| id := id Demo.ada;
            password := 42%N :: utf16 "battery staple";
            other := other Demo.ada |}
      :: after.
Proof.
  apply (action_updates_only_the_password (C := Demo.collaborators)
           Demo.rotate Demo.world Demo.ada eq_refl eq_refl
           _ eq_refl eq_refl eq_refl eq_refl).
Defined.

(** A whole run: Ada changes her password. *)
Example action_rotate_run :
  action Demo.rotate Demo.world
  = (Returned
       {| status := 302;
          headers := [("Set-Cookie", utf16 "ada"); ("Location", utf16 "/")];
          body := None |},
     {| users :=
          [{| id := VStr (utf16 "ada");
              password := 42%N :: utf16 "battery staple";
              other := [("username", VStr (utf16 "Ada"))] |};
           Demo.bob];
        entropy := 43;
        log :=
          [CookieParse (Some (utf16 "ada"));
           FindUnique (VStr (utf16 "ada"));
           RequestJson;
           Argon2Verify (7%N :: utf16 "correct horse")
             (VStr (utf16 "correct horse"));
           Argon2Hash (VStr (utf16 "battery staple"));
           UserUpdate (VStr (utf16 "ada"))
             {| data_password := Some (42%N :: utf16 "battery staple");
                data_other := [] |};
           CookieSerialize (VObj [("userId", VStr (utf16 "ada"))])] |}).
Proof. reflexivity. Qed.

(** The loader and the key handler at concrete inputs. *)
Example loader_redirects_anonymous :
  loader Demo.anonymous Demo.world
  = (Returned (Some (redirect "/login" [])), Demo.world).
Proof. reflexivity. Qed.

Example loader_lets_ada_in :
  loader Demo.rotate Demo.world = (Returned None, Demo.world).
Proof. reflexivity. Qed.

Example handleKeyDown_meta_enter :
  EditCommentInput.handleKeyDown
    {| EditCommentInput.value := utf16 "draft" |}
    {| EditCommentInput.key := utf16 "Enter";
       EditCommentInput.metaKey := true;
       EditCommentInput.ctrlKey := false |}
  = [EditCommentInput.PreventDefault; EditCommentInput.OnConfirm].
Proof. reflexivity. Qed.

Example handleKeyDown_plain_enter :
  EditCommentInput.handleKeyDown
    {| EditCommentInput.value := utf16 "draft" |}
    {| EditCommentInput.key := utf16 "Enter";
       EditCommentInput.metaKey := false;
       EditCommentInput.ctrlKey := false |}
  = [].
Proof. reflexivity. Qed.

Example handleKeyDown_escape :
  EditCommentInput.handleKeyDown
    {| EditCommentInput.value := utf16 "draft" |}
    {| EditCommentInput.key := utf16 "Escape";
       EditCommentInput.metaKey := false;
       EditCommentInput.ctrlKey := true |}
  = [EditCommentInput.OnCancel].
Proof. reflexivity. Qed.

(* ===================================================================== *)
(** * More about the action *)
(* ===================================================================== *)

(** Every run of [action] is one of the eight paths. *)
Lemma action_outcome {C : Collaborators} (request : Request)
  (w : World Entropy) :
  outcome request w (fst (action request w)) (snd (action request w)).
Proof.
  destruct (truthy (session_userId request)) eqn:Hs.
  2:{ rewrite (action_no_session request w Hs). now constructor. }
  destruct (find_row (session_userId request) (users w)) as [u|] eqn:Hf.
  2:{ rewrite (action_no_user request w Hs Hf). now constructor. }
  destruct (json request) as [fd|] eqn:Hj.
  2:{ rewrite (action_not_json request w u Hs Hf Hj).
      now apply (not_json request w u). }
  destruct (nullish fd) eqn:Hn.
  { rewrite (action_nullish_body request w u Hs Hf fd Hj Hn).
    now apply (null_body request w u fd). }
  destruct (presence_ok fd) eqn:Hp.
  2:{ rewrite (action_missing request w u Hs Hf fd Hj Hn Hp).
      now apply (missing request w u fd). }
  destruct (length_ok fd) eqn:Hl.
  2:{ rewrite (action_too_short request w u Hs Hf fd Hj Hn Hp Hl).
      now apply (too_short request w u fd). }
  destruct (argon2_verify (password u) (get fd "currentPassword")) eqn:Hv.
  - destruct (action_success request w u Hs Hf fd Hj Hn Hp Hl Hv)
      as (before & after & Hrows & Hb & Hrun).
    rewrite Hrun. now apply (rotated request w u fd before after).
  - rewrite (action_incorrect request w u Hs Hf fd Hj Hn Hp Hl Hv).
    now apply (incorrect request w u fd).
Qed.

Section MoreClaims.

Context {C : Collaborators}.

Variable request : Request.
Variable w : World Entropy.


(** X2.  A response of the action is one of five: the redirect to
    [/login], the redirect to [/] with a [Set-Cookie] header, or a 400
    with one of the three details.  Its status is 302 or 400. *)
Theorem action_responses (response : Response) (w' : World Entropy) :
  action request w = (Returned response, w') ->
  (response = redirect "/login" []
   \/ (exists token, response = redirect "/" [("Set-Cookie", token)])
   \/ response
      = badRequest (detail "Current password and new password are required")
   \/ response
      = badRequest (detail "New password must be at least 8 characters long")
   \/ response = badRequest (detail "Current password is incorrect")) /\
  (status response = 302%Z \/ status response = 400%Z).
Proof.
  intros Hrun. pose proof (action_outcome request w) as Hpath.
  rewrite Hrun in Hpath. cbn [fst snd] in Hpath.
  inversion Hpath; subst; cbn [status redirect badRequest]; eauto 10.
Qed.



Variable user : User.
Hypothesis session : truthy (session_userId request) = true.
Hypothesis found : find_row (session_userId request) (users w) = Some user.

Variable formData : value.
Hypothesis submitted : json request = Some formData.

(** X4.  A [newPassword] that is a number other than zero and NaN, or
    [true], has no [length] and passes the length validation: with a
    [currentPassword] that is present, the action does not answer with the
    length failure and goes on to verify the current password. *)
Theorem action_length_validation_passes_non_strings :
  truthy (get formData "currentPassword") = true ->
  (exists n, get formData "newPassword" = VNum n /\ truthy (VNum n) = true)
  \/ get formData "newPassword" = VBool true ->
  fst (action request w)
  <> Returned
       (badRequest
          (detail "New password must be at least 8 characters long")) /\
  exists calls,
    log (snd (action request w)) = log w ++ calls /\
    In (Argon2Verify (password user) (get formData "currentPassword")) calls.
Proof.
  intros Hcur Hnew.
  assert (Hp : presence_ok formData = true).
  { unfold presence_ok. rewrite Hcur.
    destruct Hnew as [(n & -> & Hn) | ->]; auto. }
  assert (Hl : length_ok formData = true).
  { unfold length_ok. destruct Hnew as [(n & -> & _) | ->]; reflexivity. }
  pose proof (presence_not_nullish _ Hp) as Hn.
  destruct (argon2_verify (password user) (get formData "currentPassword"))
    eqn:Hv.
  - destruct (action_success request w user session found formData submitted
                Hn Hp Hl Hv) as (before & after & _ & _ & Hrun).
    rewrite Hrun. cbn [fst snd log]. split; [discriminate|].
    eexists. split; [reflexivity|]. cbn. auto.
  - rewrite (action_incorrect request w user session found formData submitted
               Hn Hp Hl Hv).
    cbn [fst snd log record]. split; [discriminate|].
    eexists. split; [reflexivity|]. cbn. auto.
Qed.

End MoreClaims.

Section Twice.

Context {C : Collaborators}.

Variables request again : Request.
Variable w : World Entropy.
Variable user : User.
Variables formData formData' : value.
Variables current new : jsstring.

Hypothesis session : truthy (session_userId request) = true.
Hypothesis found : find_row (session_userId request) (users w) = Some user.
Hypothesis submitted : json request = Some formData.
Hypothesis current_field : get formData "currentPassword" = VStr current.
Hypothesis current_present : current <> [].
Hypothesis new_field : get formData "newPassword" = VStr new.
Hypothesis current_verifies :
  argon2_verify (password user) (VStr current) = true.
Hypothesis new_long : 8 <= List.length new.

Hypothesis same_session : session_userId again = session_userId request.
Hypothesis submitted_again : json again = Some formData'.

(** The world after the first submission, and the row it stored. *)
Let w1 : World Entropy := snd (action request w).
Let stored : User :=
  {| id := session_userId request;
     password := fst (argon2_hash (entropy w) (VStr new));
     other := other user |}.

Lemma first_rotation :
  find_row (session_userId again) (users w1) = Some stored.
Proof.
  destruct (rotation request w user session found formData submitted
              current new current_field current_present new_field
              current_verifies new_long) as (w' & Hrun & _ & Hrow).
  unfold w1. rewrite Hrun, same_session. exact Hrow.
Qed.

(** X5.  The password a submission stored is the current password of the
    next one: after a successful change to [new], a second submission on
    the same session whose [currentPassword] is [new] and whose
    [newPassword] has at least 8 code units succeeds in its turn, and the
    row then holds the hash of the second new password.  The hash
    primitive is taken to verify what it hashed. *)
Theorem action_twice (new' : jsstring) :
  (forall e p, argon2_verify (fst (argon2_hash e (VStr p))) (VStr p) = true) ->
  get formData' "currentPassword" = VStr new ->
  get formData' "newPassword" = VStr new' ->
  8 <= List.length new' ->
  exists w2,
    action again (snd (action request w))
    = (Returned
         (redirect "/"
            [("Set-Cookie",
              authCookie_serialize
                (VObj [("userId", session_userId request)]))]),
       w2) /\
    find_row (session_userId request) (users w2)
    = Some {| id := session_userId request;
              password :=
                fst (argon2_hash (entropy (snd (action request w)))
                       (VStr new'));
              other := other user |}.
Proof.
  intros Hprim Hcur' Hnew' Hlen'.
  assert (Hne : new <> [])
    by (destruct new; [simpl in new_long; lia | congruence]).
  assert (Hs' : truthy (session_userId again) = true)
    by now rewrite same_session.
  destruct (rotation again w1 stored Hs' first_rotation formData'
              submitted_again new new' Hcur' Hne Hnew' (Hprim _ _) Hlen')
    as (w2 & Hrun & _ & Hrow).
  exists w2. fold w1. rewrite same_session in Hrun, Hrow.
  split; [exact Hrun | exact Hrow].
Qed.

(** X6.  The next submission is judged against the hash just stored, not
    against the one it replaced: after a successful change to [new], a
    second submission on the same session that passes both validations
    and whose [currentPassword] does not verify against the hash of [new]
    is answered 400 "Current password is incorrect", and the table stays
    as the first submission left it. *)
Theorem action_then_rejects_unverified :
  presence_ok formData' = true ->
  length_ok formData' = true ->
  argon2_verify (fst (argon2_hash (entropy w) (VStr new)))
    (get formData' "currentPassword") = false ->
  exists w2,
    action again (snd (action request w))
    = (Returned (badRequest (detail "Current password is incorrect")), w2) /\
    users w2 = users (snd (action request w)).
Proof.
  intros Hp Hl Hv.
  assert (Hs' : truthy (session_userId again) = true)
    by now rewrite same_session.
  eexists. fold w1. split.
  - apply (action_incorrect again w1 stored Hs' first_rotation formData'
             submitted_again (presence_not_nullish _ Hp) Hp Hl Hv).
  - reflexivity.
Qed.

End Twice.

(* ===================================================================== *)
(** * The change-password form and the action *)
(* ===================================================================== *)

(** X7.  The dot beside the new-password field is green exactly when the
    action's length validation accepts the string in the field; it is not
    green while the field has no value. *)
Theorem indicator_agrees_with_length_validation
  (ToNumber : value -> float) (s : jsstring) :
  (ChangePasswordForm.indicator (Some s) = "bg-green-600"
   <-> length_lt ToNumber (VStr s) 8 = false) /\
  ChangePasswordForm.indicator None <> "bg-green-600".
Proof.
  split; [|discriminate].
  unfold ChangePasswordForm.indicator, ChangePasswordForm.newPassword_length.
  cbn [length_lt].
  replace (match List.length s with 0 => 0 | S n => S n end)
    with (List.length s) by (destruct (List.length s); reflexivity).
  destruct (Nat.leb_spec 8 (List.length s)) as [Hge | Hlt].
  - split; [intros _; apply Nat.ltb_ge; exact Hge | reflexivity].
  - split; [discriminate|].
    intros H. apply Nat.ltb_ge in H. lia.
Qed.

(* ===================================================================== *)
(** * More about the comment edit input *)
(* ===================================================================== *)

(** X8.  The key handler confirms on Enter with Control or Command and on
    nothing else, cancels on Escape and on nothing else, and prevents the
    default action exactly when it confirms: Enter alone is left to the
    textarea, and no key both confirms and cancels. *)
Theorem handleKeyDown_calls
  (props : EditCommentInput.EditInputProps)
  (e : EditCommentInput.KeyboardEvent) :
  let calls := EditCommentInput.handleKeyDown props e in
  (In EditCommentInput.OnConfirm calls
   <-> EditCommentInput.key e = utf16 "Enter"
       /\ (EditCommentInput.metaKey e = true
           \/ EditCommentInput.ctrlKey e = true)) /\
  (In EditCommentInput.OnCancel calls
   <-> EditCommentInput.key e = utf16 "Escape") /\
  (In EditCommentInput.PreventDefault calls
   <-> In EditCommentInput.OnConfirm calls) /\
  ~ (In EditCommentInput.OnConfirm calls
     /\ In EditCommentInput.OnCancel calls).
Proof.
  unfold EditCommentInput.handleKeyDown.
  destruct (string_eqb (EditCommentInput.key e) (utf16 "Enter")) eqn:Henter.
  - apply string_eqb_eq in Henter. rewrite Henter.
    destruct (EditCommentInput.metaKey e), (EditCommentInput.ctrlKey e);
      cbn; repeat split; intros; intuition (try discriminate; auto).
  - assert (Hne : EditCommentInput.key e <> utf16 "Enter").
    { intros H. rewrite H, string_eqb_refl in Henter. discriminate. }
    rewrite andb_false_r.
    destruct (string_eqb (EditCommentInput.key e) (utf16 "Escape"))
      eqn:Hesc.
    + apply string_eqb_eq in Hesc.
      cbn; repeat split; intros; intuition (try discriminate; auto).
    + assert (Hne' : EditCommentInput.key e <> utf16 "Escape").
      { intros H. rewrite H, string_eqb_refl in Hesc. discriminate. }
      cbn; repeat split; intros; intuition (try discriminate; auto).
Qed.

Section Effects.

Import EditCommentInputEffects.

Variable scrollHeight : Textarea -> Z.

Lemma handleResize_fitted (i : Instance) :
  fitted scrollHeight (handleResize scrollHeight i).
Proof.
  unfold fitted, handleResize.
  destruct (inputRef i) as [textarea|] eqn:E; cbn; [reflexivity|].
  now rewrite E.
Qed.

Lemma handleResize_timeout (i : Instance) :
  timeout (handleResize scrollHeight i) = timeout i.
Proof. unfold handleResize. now destruct (inputRef i). Qed.

Lemma handleResize_focus_calls (i : Instance) :
  focus_calls (handleResize scrollHeight i) = focus_calls i.
Proof. unfold handleResize. now destruct (inputRef i). Qed.

Lemma step_fitted (i : Instance) (ev : Event) :
  fitted scrollHeight i -> fitted scrollHeight (step scrollHeight i ev).
Proof.
  intros Hi. destruct ev as [v | v | ms |]; cbn [step].
  - destruct (inputRef i) eqn:E; [exact Hi | apply handleResize_fitted].
  - destruct (inputRef i) as [textarea|] eqn:E; [|exact Hi].
    destruct (string_eqb v (text textarea));
      [exact Hi | apply handleResize_fitted].
  - destruct (timeout i) as [delay|]; [|exact Hi].
    destruct (Nat.leb delay ms); [apply handleResize_fitted | exact Hi].
  - exact I.
Qed.

(** X9.  Whatever happens to an instance of the input (mounts, renders
    with other values, time passing, unmounts), while it is mounted the
    inline height of its textarea is the scroll height the browser reports
    for its present text under [height: auto]: a height set for an earlier,
    longer text never stays. *)
Theorem height_always_fits (evs : list Event) :
  fitted scrollHeight (run scrollHeight unmounted evs).
Proof.
  unfold run.
  assert (H : forall i, fitted scrollHeight i ->
                        fitted scrollHeight (fold_left (step scrollHeight) evs i)).
  { induction evs as [|ev evs IH]; intros i Hi; [exact Hi|].
    cbn [fold_left]. apply IH. now apply step_fitted. }
  apply H. exact I.
Qed.

Lemma run_quiet (evs : list Event) :
  forall i,
    elapsed evs < 100 ->
    (forall delay, timeout i = Some delay -> elapsed evs < delay) ->
    focus_calls (run scrollHeight i evs) = focus_calls i.
Proof.
  unfold run. induction evs as [|ev evs IH]; intros i Hlt Hd; [reflexivity|].
  cbn [fold_left].
  destruct ev as [v | v | ms |]; cbn [elapsed] in Hlt, Hd; cbn [step].
  - destruct (inputRef i) eqn:E; [now apply IH|].
    rewrite IH; [now rewrite handleResize_focus_calls | exact Hlt |].
    rewrite handleResize_timeout. cbn. intros delay [= <-]. exact Hlt.
  - destruct (inputRef i) as [textarea|] eqn:E; [|now apply IH].
    destruct (string_eqb v (text textarea)); [now apply IH|].
    rewrite IH; [now rewrite handleResize_focus_calls | exact Hlt |].
    rewrite handleResize_timeout. exact Hd.
  - destruct (timeout i) as [delay|] eqn:E.
    + specialize (Hd delay eq_refl).
      destruct (Nat.leb_spec delay ms) as [Hle | Hgt]; [lia|].
      rewrite IH; [reflexivity | lia |].
      cbn. intros d [= <-]. lia.
    + apply IH; [lia|]. rewrite E. discriminate.
  - rewrite IH; [reflexivity | exact Hlt |]. cbn. discriminate.
Qed.

(** X10.  The input does not claim the focus before its timer is due:
    from a fresh mount, as long as less than 100 ms have passed in all,
    [focus()] has not been called, whatever renders, unmounts and
    re-mounts there were. *)
Theorem no_focus_before_the_delay (value : jsstring) (evs : list Event) :
  elapsed evs < 100 ->
  focus_calls (run scrollHeight unmounted (Mount value :: evs)) = 0.
Proof.
  intros Hlt. unfold run. cbn [fold_left].
  change (focus_calls
            (run scrollHeight (step scrollHeight unmounted (Mount value)) evs)
          = 0).
  rewrite run_quiet; [reflexivity | exact Hlt |].
  cbn. intros delay [= <-]. exact Hlt.
Qed.

Lemma run_unmounted (evs : list Event) :
  forall i,
    inputRef i = None -> timeout i = None ->
    forallb (fun ev => negb (is_mount ev)) evs = true ->
    run scrollHeight i evs = i.
Proof.
  unfold run. induction evs as [|ev evs IH]; intros i Hr Ht Hm;
    [reflexivity|].
  cbn [forallb] in Hm. apply andb_prop in Hm as [Hev Hm].
  cbn [fold_left].
  destruct ev as [v | v | ms |]; try discriminate; cbn [step].
  - rewrite Hr. now apply IH.
  - rewrite Ht. now apply IH.
  - rewrite IH; auto. destruct i; cbn in *; congruence.
Qed.

(** X11.  Unmounting cancels the timer: once the input is unmounted, no
    amount of time makes it call [focus()] or touch a textarea, until it is
    mounted again. *)
Theorem unmount_cancels_the_timer (i : Instance) (evs : list Event) :
  forallb (fun ev => negb (is_mount ev)) evs = true ->
  run scrollHeight i (Unmount :: evs)
  = {| inputRef := None; timeout := None; focus_calls := focus_calls i |}.
Proof.
  intros Hm. unfold run. cbn [fold_left step].
  now apply run_unmounted.
Qed.

Lemma run_focus_bound (evs : list Event) :
  forall i,
    focus_calls (run scrollHeight i evs)
    <= focus_calls i + mounts evs
       + match timeout i with Some _ => 1 | None => 0 end.
Proof.
  unfold run, mounts.
  induction evs as [|ev evs IH]; intros i; [cbn; lia|].
  cbn [fold_left].
  destruct ev as [v | v | ms |]; cbn [filter is_mount List.length step].
  - destruct (inputRef i) eqn:E.
    + specialize (IH i). lia.
    + match goal with
      | |- context [fold_left _ evs ?j] => specialize (IH j)
      end.
      rewrite handleResize_focus_calls, handleResize_timeout in IH.
      cbn [focus_calls timeout inputRef] in IH. destruct (timeout i); lia.
  - destruct (inputRef i) as [textarea|] eqn:E; [|apply IH].
    destruct (string_eqb v (text textarea)); [apply IH|].
    match goal with
    | |- context [fold_left _ evs ?j] => specialize (IH j)
    end.
    rewrite handleResize_focus_calls, handleResize_timeout in IH.
    exact IH.
  - destruct (timeout i) as [delay|] eqn:E; [|specialize (IH i); now rewrite E in IH].
    destruct (Nat.leb delay ms).
    + unfold on_timeout. cbn [inputRef timeout focus_calls].
      destruct (inputRef i);
        match goal with
        | |- context [fold_left _ evs ?j] => specialize (IH j)
        end;
        rewrite handleResize_focus_calls, handleResize_timeout in IH;
        cbn [focus_calls timeout] in IH; lia.
    + match goal with
      | |- context [fold_left _ evs ?j] => specialize (IH j)
      end.
      cbn [focus_calls timeout inputRef] in IH. lia.
  - match goal with
    | |- context [fold_left _ evs ?j] => specialize (IH j)
    end.
    cbn [focus_calls timeout inputRef] in IH. lia.
Qed.

(** X12.  The input claims the focus at most once each time it is
    mounted: the calls of [focus()] never outnumber the mounts. *)
Theorem focus_at_most_once_a_mount (evs : list Event) :
  focus_calls (run scrollHeight unmounted evs) <= mounts evs.
Proof.
  pose proof (run_focus_bound evs unmounted) as H. cbn in H. lia.
Qed.

End Effects.

(* ===================================================================== *)
(** * The further properties at concrete inputs *)
(* ===================================================================== *)

(** Ada mistypes her current password: the response is a 400. *)
Lemma action_responses_witness :
  status (badRequest (detail "Current password is incorrect")) = 302%Z
  \/ status (badRequest (detail "Current password is incorrect")) = 400%Z.
Proof.
  exact (proj2 (action_responses (C := Demo.collaborators)
                  Demo.mistyped Demo.world _ _ eq_refl)).
Defined.


(** The number 12345678 as a new password reaches the verification. *)
Lemma action_length_validation_passes_non_strings_witness :
  fst (action Scenario.numeric Demo.world)
  <> Returned
       (badRequest
          (detail "New password must be at least 8 characters long")) /\
  exists calls,
    log (snd (action Scenario.numeric Demo.world))
    = log Demo.world ++ calls /\
    In (Argon2Verify (password Demo.ada) (VStr (utf16 "correct horse")))
      calls.
Proof.
  apply (action_length_validation_passes_non_strings
           (C := Demo.collaborators)
           Scenario.numeric Demo.world Demo.ada eq_refl eq_refl _ eq_refl
           eq_refl).
  left. exists 12345678%float. split; reflexivity.
Defined.

(** Ada changes her password twice. *)
Lemma action_twice_witness :
  exists w2,
    action Scenario.again (snd (action Demo.rotate Demo.world))
    = (Returned (redirect "/" [("Set-Cookie", utf16 "ada")]), w2) /\
    find_row (VStr (utf16 "ada")) (users w2)
    = Some {| id := VStr (utf16 "ada");
              password := 43%N :: utf16 "tr0ub4dor&3";
              other := other Demo.ada |}.
Proof.
  apply (action_twice (C := Demo.collaborators)
           Demo.rotate Scenario.again Demo.world Demo.ada
           (Scenario.fields "correct horse" "battery staple")
           (Scenario.fields "battery staple" "tr0ub4dor&3")
           (utf16 "correct horse") (utf16 "battery staple"));
    try reflexivity; try discriminate; try (vm_compute; lia).
  exact demo_hash_verifies.
Defined.

(** Ada changes her password and then submits the old one again. *)
Lemma action_then_rejects_unverified_witness :
  exists w2,
    action Demo.rotate (snd (action Demo.rotate Demo.world))
    = (Returned (badRequest (detail "Current password is incorrect")), w2) /\
    users w2 = users (snd (action Demo.rotate Demo.world)).
Proof.
  apply (action_then_rejects_unverified (C := Demo.collaborators)
           Demo.rotate Demo.rotate Demo.world Demo.ada
           (Scenario.fields "correct horse" "battery staple")
           (Scenario.fields "correct horse" "battery staple")
           (utf16 "correct horse") (utf16 "battery staple"));
    try reflexivity; try discriminate; try (vm_compute; lia).
Defined.

(** Two short waits, an unmount and a second mount: 99 ms in all. *)
Lemma no_focus_before_the_delay_witness :
  EditCommentInputEffects.focus_calls
    (EditCommentInputEffects.run Scenario.lines
       EditCommentInputEffects.unmounted
       [EditCommentInputEffects.Mount (utf16 "draft");
        EditCommentInputEffects.Elapse 60;
        EditCommentInputEffects.Unmount;
        EditCommentInputEffects.Mount (utf16 "draft");
        EditCommentInputEffects.Elapse 39])
  = 0.
Proof.
  apply (no_focus_before_the_delay Scenario.lines (utf16 "draft")).
  vm_compute. lia.
Defined.

(** An input unmounted 40 ms after its mount, and left for a second. *)
Lemma unmount_cancels_the_timer_witness :
  EditCommentInputEffects.run Scenario.lines
    (EditCommentInputEffects.run Scenario.lines
       EditCommentInputEffects.unmounted
       [EditCommentInputEffects.Mount (utf16 "draft");
        EditCommentInputEffects.Elapse 40])
    [EditCommentInputEffects.Unmount;
     EditCommentInputEffects.Elapse 1000;
     EditCommentInputEffects.Render (utf16 "late")]
  = {| EditCommentInputEffects.inputRef := None;
       EditCommentInputEffects.timeout := None;
       EditCommentInputEffects.focus_calls := 0 |}.
Proof.
  apply (unmount_cancels_the_timer Scenario.lines
           (EditCommentInputEffects.run Scenario.lines
              EditCommentInputEffects.unmounted
              [EditCommentInputEffects.Mount (utf16 "draft");
               EditCommentInputEffects.Elapse 40])).
  reflexivity.
Defined.

(** The input through a mount, the timer, a longer and a shorter text. *)
Example effects_run :
  EditCommentInputEffects.run Scenario.lines
    EditCommentInputEffects.unmounted
    [EditCommentInputEffects.Mount (utf16 "one");
     EditCommentInputEffects.Elapse 100;
     EditCommentInputEffects.Render [111; 10; 116; 10; 116]%N;
     EditCommentInputEffects.Render (utf16 "o")]
  = {| EditCommentInputEffects.inputRef :=
         Some {| EditCommentInputEffects.text := utf16 "o";
                 EditCommentInputEffects.height :=
                   EditCommentInputEffects.Px 20;
                 EditCommentInputEffects.focused := true |};
       EditCommentInputEffects.timeout := None;
       EditCommentInputEffects.focus_calls := 1 |}.
Proof. reflexivity. Qed.

Example effects_run_longer :
  EditCommentInputEffects.inputRef
    (EditCommentInputEffects.run Scenario.lines
       EditCommentInputEffects.unmounted
       [EditCommentInputEffects.Mount (utf16 "one");
        EditCommentInputEffects.Render [111; 10; 116; 10; 116]%N])
  = Some {| EditCommentInputEffects.text := [111; 10; 116; 10; 116]%N;
            EditCommentInputEffects.height := EditCommentInputEffects.Px 60;
            EditCommentInputEffects.focused := false |}.
Proof. reflexivity. Qed.

Example action_not_json_run :
  action Scenario.not_json Demo.world
  = (Threw SyntaxError,
     record Demo.world
       [CookieParse (Some (utf16 "ada")); FindUnique (VStr (utf16 "ada"));
        RequestJson]).
Proof. reflexivity. Qed.

Example indicator_values :
  map ChangePasswordForm.indicator
    [None; Some []; Some (utf16 "1234567"); Some (utf16 "12345678")]
  = ["dark:bg-neutral-700 bg-neutral-400";
     "dark:bg-neutral-700 bg-neutral-400";
     "dark:bg-neutral-700 bg-neutral-400";
     "bg-green-600"].
Proof. reflexivity. Qed.
